(** * whatismywan: the Stream Deck action that shows the public IP address

    A shallow embedding of [src/actions/show-wan-ip.ts] and the properties of
    its text-to-image renderer and of its fetch-and-display driver.

    - [JS]        the JavaScript primitives the action relies on: strings as
                  sequences of UTF-16 code units, [String.prototype.split],
                  [Number::toString] on IEEE 754 doubles, template literals.
    - [Buffer]    Node's [Buffer.from(string)] (UTF-8) and
                  [toString("base64")], with a decoder used to read payloads
                  back.
    - [Plugin]    the class [ShowWanIP]: its fields, its five image builders,
                  its four event handlers, the clipboard command and the
                  fetch, in a monad of state and exceptions over the
                  collaborators (network, display, shell, timers, log).
    - [Layout]    a rendered document described as data: the lines of text,
                  their position and size. *)

From Stdlib Require Import ZArith NArith QArith Qround List Ascii String.
From Stdlib.Strings Require Import Byte.
From Stdlib Require Import Bool Lia Floats DecimalString.
Import ListNotations.

Set Warnings "-inexact-float".

(* ================================================================= *)
(** * JavaScript primitives *)

Module JS.

(** A JavaScript string is a sequence of UTF-16 code units; [length] counts
    code units, as [String.prototype.length] does. *)
Definition codeunit := N.
Definition jsstring := list codeunit.

(** An ASCII literal as a JavaScript string. *)
Definition lit (s : string) : jsstring :=
  map N_of_ascii (list_ascii_of_string s).

(** The text of a template literal.  The source's templates contain double
    quotes and no apostrophe: here the text is written with an apostrophe
    (code 39) wherever the source has a double quote (code 34). *)
Definition tpl (s : string) : jsstring :=
  map (fun c => if N.eqb c 39 then 34%N else c) (lit s).

(** What [`${v}`] inserts for a value that is [undefined]. *)
Definition undefined : jsstring := lit "undefined".

(** [a[i]] inside a template: the element, or [undefined] out of range. *)
Definition at_index (a : list jsstring) (i : nat) : jsstring :=
  nth i a undefined.

(** [s.split(sep)] for a separator of one code unit: one segment more than
    there are separators, empty segments kept (leading, inner and trailing). *)
Fixpoint split (sep : codeunit) (s : jsstring) : list jsstring :=
  match s with
  | [] => [[]]
  | c :: rest =>
      if N.eqb c sep then [] :: split sep rest
      else match split sep rest with
           | seg :: segs => (c :: seg) :: segs
           | [] => [[c]]
           end
  end.

Definition dot : codeunit := 46%N.

(** ** Number::toString (radix 10) on doubles

    ECMA-262, Number::toString: the shortest decimal [s * 10^(n-k)] with [k]
    digits that reads back as the same double, the closest one to the value
    when several have that length, laid out in positional or exponent
    notation according to [n]. *)

Section NumberToString.
Local Open Scope Q_scope.

Definition pow10 (n : Z) : Q := Qpower (10 # 1) n.

(** The value of the finite double with mantissa [m] and exponent [e]. *)
Definition finiteValue (m : positive) (e : Z) : Q :=
  (Zpos m # 1) * Qpower (2 # 1) e.

Definition Qlt_bool (a b : Q) : bool := negb (Qle_bool b a).

(** The [n] with [10^(n-1) <= x < 10^n], searched from a first guess. *)
Fixpoint decimalExponent (fuel : nat) (x : Q) (n : Z) : Z :=
  match fuel with
  | O => n
  | S fuel' =>
      if Qle_bool (pow10 n) x then decimalExponent fuel' x (n + 1)
      else if Qle_bool (pow10 (n - 1)) x then n
      else decimalExponent fuel' x (n - 1)
  end.

(** Does the real [v] round (to nearest, ties to even) to the double
    [m * 2^e]?  The gap below a power of two is half the gap above it. *)
Definition roundsTo (m : positive) (e : Z) (v : Q) : bool :=
  let x := finiteValue m e in
  let up := Qpower (2 # 1) (e - 1) in
  let down :=
    if andb (Pos.eqb m 4503599627370496) (Z.ltb (-1074) e)
    then Qpower (2 # 1) (e - 2) else up in
  if Z.even (Zpos m)
  then andb (Qle_bool (x - down) v) (Qle_bool v (x + up))
  else andb (Qlt_bool (x - down) v) (Qlt_bool v (x + up)).

(** The [k]-digit candidates next to the value, below and above it. *)
Definition pickDigits (m : positive) (e : Z) (n k : Z) : option (Z * Z) :=
  let x := finiteValue m e in
  let scale := pow10 (n - k) in
  let lo := Qfloor (x / scale) in
  let hi := (lo + 1)%Z in
  let vlo := (lo # 1) * scale in
  let vhi := (hi # 1) * scale in
  let norm (s : Z) :=
    if Z.eqb s (10 ^ k) then ((n + 1)%Z, (10 ^ (k - 1))%Z) else (n, s) in
  match roundsTo m e vlo, roundsTo m e vhi with
  | false, false => None
  | true, false => Some (norm lo)
  | false, true => Some (norm hi)
  | true, true =>
      let dlo := x - vlo in
      let dhi := vhi - x in
      if Qlt_bool dlo dhi then Some (norm lo)
      else if Qlt_bool dhi dlo then Some (norm hi)
      else Some (norm (if Z.even lo then lo else hi))
  end.

(** The least [k] that has a candidate; 17 digits always suffice. *)
Fixpoint shortestDigits (fuel : nat) (m : positive) (e : Z) (n k : Z)
  : Z * Z * Z :=
  match fuel with
  | O => (n, k, Qfloor (finiteValue m e / pow10 (n - k)))
  | S fuel' =>
      match pickDigits m e n k with
      | Some (n', s) => (n', k, s)
      | None => shortestDigits fuel' m e n (k + 1)
      end
  end.

Definition digitsOfZ (z : Z) : jsstring :=
  lit (NilZero.string_of_uint (N.to_uint (Z.to_N z))).

Definition zeros (n : Z) : jsstring := repeat 48%N (Z.to_nat n).

Definition formatFinite (m : positive) (e : Z) : jsstring :=
  let x := finiteValue m e in
  let n0 := decimalExponent 700 x 0 in
  let '(n, k, s) := shortestDigits 17 m e n0 1 in
  let ds := digitsOfZ s in
  if andb (k <=? n)%Z (n <=? 21)%Z then ds ++ zeros (n - k)
  else if andb (0 <? n)%Z (n <=? 21)%Z
  then firstn (Z.to_nat n) ds ++ lit "." ++ skipn (Z.to_nat n) ds
  else if andb (-6 <? n)%Z (n <=? 0)%Z then lit "0." ++ zeros (- n) ++ ds
  else
    let ex := (n - 1)%Z in
    let sign := if (ex <? 0)%Z then lit "-" else lit "+" in
    let mant :=
      if (k =? 1)%Z then ds else firstn 1 ds ++ lit "." ++ skipn 1 ds in
    mant ++ lit "e" ++ sign ++ digitsOfZ (Z.abs ex).

(** [`${x}`] for a number [x]. *)
Definition numberToString (x : float) : jsstring :=
  match Prim2SF x with
  | S754_nan => lit "NaN"
  | S754_zero _ => lit "0"
  | S754_infinity s => (if s then lit "-" else []) ++ lit "Infinity"
  | S754_finite s m e => (if s then lit "-" else []) ++ formatFinite m e
  end.

End NumberToString.

(** The loop counter [i] as a number. *)
Definition numberOfZ (i : Z) : float := PrimFloat.of_uint63 (Uint63.of_Z i).

End JS.

(* ================================================================= *)
(** * Node's Buffer: UTF-8 and base64 *)

Module Buffer.
Import JS.
Local Open Scope N_scope.

Definition isHighSurrogate (c : codeunit) : bool :=
  (0xD800 <=? c) && (c <=? 0xDBFF).
Definition isLowSurrogate (c : codeunit) : bool :=
  (0xDC00 <=? c) && (c <=? 0xDFFF).

(** The characters of a string: a surrogate pair is one character, a
    surrogate on its own is read as U+FFFD. *)
Fixpoint codePoints (s : jsstring) : list N :=
  match s with
  | [] => []
  | c :: rest =>
      if isHighSurrogate c then
        match rest with
        | d :: rest' =>
            if isLowSurrogate d
            then (0x10000 + (c - 0xD800) * 0x400 + (d - 0xDC00))
                   :: codePoints rest'
            else 0xFFFD :: codePoints rest
        | [] => [0xFFFD]
        end
      else if isLowSurrogate c then 0xFFFD :: codePoints rest
      else c :: codePoints rest
  end.

(** The low eight bits of [n]. *)
Definition byteOf (n : N) : byte := byte_of_ascii (ascii_of_N n).

Definition continuation (n : N) : byte := byteOf (N.lor 0x80 (N.land n 0x3F)).

Definition utf8 (cp : N) : list byte :=
  if cp <? 0x80 then [byteOf cp]
  else if cp <? 0x800
  then [byteOf (N.lor 0xC0 (N.shiftr cp 6)); continuation cp]
  else if cp <? 0x10000
  then [byteOf (N.lor 0xE0 (N.shiftr cp 12));
        continuation (N.shiftr cp 6); continuation cp]
  else [byteOf (N.lor 0xF0 (N.land (N.shiftr cp 18) 0x07));
        continuation (N.shiftr cp 12);
        continuation (N.shiftr cp 6); continuation cp].

(** [Buffer.from(s)]: the UTF-8 bytes of [s]. *)
Definition from (s : jsstring) : list byte := flat_map utf8 (codePoints s).

(** ** base64 *)

Definition alphabet : jsstring :=
  lit "ABCDEFGHIJKLMNOPQRSTUVWXYZabcdefghijklmnopqrstuvwxyz0123456789+/".

Definition pad : codeunit := 61.

(** Six bits, most significant first. *)
Definition sextet : Type := bool * bool * bool * bool * bool * bool.

Definition sextetIndex (s : sextet) : N :=
  let '(b5, b4, b3, b2, b1, b0) := s in
  N_of_digits [b0; b1; b2; b3; b4; b5].

Definition sextetChar (s : sextet) : codeunit :=
  nth (N.to_nat (sextetIndex s)) alphabet pad.

Fixpoint indexOf (c : codeunit) (l : jsstring) (i : N) : option N :=
  match l with
  | [] => None
  | d :: l' => if c =? d then Some i else indexOf c l' (i + 1)
  end.

Definition charSextet (c : codeunit) : option sextet :=
  match indexOf c alphabet 0 with
  | Some i =>
      Some (N.testbit i 5, N.testbit i 4, N.testbit i 3,
            N.testbit i 2, N.testbit i 1, N.testbit i 0)
  | None => None
  end.

(** [buf.toString("base64")]: three bytes become four characters; one or two
    bytes left over are padded with [=]. *)
Fixpoint toBase64 (bs : list byte) : jsstring :=
  match bs with
  | [] => []
  | [a] =>
      let '(a0, (a1, (a2, (a3, (a4, (a5, (a6, a7))))))) := Byte.to_bits a in
      [sextetChar (a7, a6, a5, a4, a3, a2);
       sextetChar (a1, a0, false, false, false, false); pad; pad]
  | [a; b] =>
      let '(a0, (a1, (a2, (a3, (a4, (a5, (a6, a7))))))) := Byte.to_bits a in
      let '(b0, (b1, (b2, (b3, (b4, (b5, (b6, b7))))))) := Byte.to_bits b in
      [sextetChar (a7, a6, a5, a4, a3, a2);
       sextetChar (a1, a0, b7, b6, b5, b4);
       sextetChar (b3, b2, b1, b0, false, false); pad]
  | a :: b :: c :: rest =>
      let '(a0, (a1, (a2, (a3, (a4, (a5, (a6, a7))))))) := Byte.to_bits a in
      let '(b0, (b1, (b2, (b3, (b4, (b5, (b6, b7))))))) := Byte.to_bits b in
      let '(c0, (c1, (c2, (c3, (c4, (c5, (c6, c7))))))) := Byte.to_bits c in
      sextetChar (a7, a6, a5, a4, a3, a2)
        :: sextetChar (a1, a0, b7, b6, b5, b4)
        :: sextetChar (b3, b2, b1, b0, c7, c6)
        :: sextetChar (c5, c4, c3, c2, c1, c0)
        :: toBase64 rest
  end.

Definition firstByte (s0 s1 : sextet) : byte :=
  let '(a7, a6, a5, a4, a3, a2) := s0 in
  let '(a1, a0, _, _, _, _) := s1 in
  Byte.of_bits (a0, (a1, (a2, (a3, (a4, (a5, (a6, a7))))))).

Definition secondByte (s1 s2 : sextet) : byte :=
  let '(_, _, b7, b6, b5, b4) := s1 in
  let '(b3, b2, b1, b0, _, _) := s2 in
  Byte.of_bits (b0, (b1, (b2, (b3, (b4, (b5, (b6, b7))))))).

Definition thirdByte (s2 s3 : sextet) : byte :=
  let '(_, _, _, _, c7, c6) := s2 in
  let '(c5, c4, c3, c2, c1, c0) := s3 in
  Byte.of_bits (c0, (c1, (c2, (c3, (c4, (c5, (c6, c7))))))).

(** The reader of base64 text: groups of four characters, padding allowed in
    the last group only. *)
Fixpoint fromBase64 (s : jsstring) : option (list byte) :=
  match s with
  | [] => Some []
  | c0 :: c1 :: c2 :: c3 :: rest =>
      match charSextet c0, charSextet c1 with
      | Some s0, Some s1 =>
          if (c2 =? pad) && (c3 =? pad) then
            match rest with
            | [] => Some [firstByte s0 s1]
            | _ :: _ => None
            end
          else
            match charSextet c2 with
            | Some s2 =>
                if c3 =? pad then
                  match rest with
                  | [] => Some [firstByte s0 s1; secondByte s1 s2]
                  | _ :: _ => None
                  end
                else
                  match charSextet c3, fromBase64 rest with
                  | Some s3, Some bs =>
                      Some (firstByte s0 s1 :: secondByte s1 s2
                              :: thirdByte s2 s3 :: bs)
                  | _, _ => None
                  end
            | None => None
            end
      | _, _ => None
      end
  | _ => None
  end.

End Buffer.

(* ================================================================= *)
(** * The action: [class ShowWanIP] *)

Module Plugin.
Import JS.
Local Open Scope float_scope.

(** Stream Deck key size (the @2x bitmap). *)
Definition KEY_SIZE : float := 144.

(** Handles of the host runtime: a key of the device, a running timer. *)
Definition ActionHandle := nat.
Definition TimerHandle := nat.

(** [type WanIPSettings = { displayLines?: 1 | 2 | 4 }]: the field may be
    absent; at run time it holds whatever number the settings store has. *)
Record WanIPSettings := { settingsDisplayLines : option float }.

(** The fields of an instance. *)
Record ShowWanIP := {
  refreshInterval : option TimerHandle;
  currentIP : jsstring;
  currentAction : option ActionHandle;
  displayLines : float
}.

(** The field initialisers of the class. *)
Definition newShowWanIP : ShowWanIP :=
  {| refreshInterval := None;
     currentIP := lit "Loading...";
     currentAction := None;
     displayLines := 1 |}.

(** ** The image builders *)

(** [createStatusImage(text)] *)
Definition createStatusImage (this : ShowWanIP) (text : jsstring) : jsstring :=
  let svg :=
    tpl "<svg xmlns='http://www.w3.org/2000/svg' width='"
    ++ numberToString KEY_SIZE ++ tpl "' height='"
    ++ numberToString KEY_SIZE ++ tpl "' viewBox='0 0 "
    ++ numberToString KEY_SIZE ++ tpl " "
    ++ numberToString KEY_SIZE ++ tpl "'><rect width='"
    ++ numberToString KEY_SIZE ++ tpl "' height='"
    ++ numberToString KEY_SIZE ++ tpl "' fill='black'/><text x='"
    ++ numberToString (KEY_SIZE / 2) ++ tpl "' y='"
    ++ numberToString (KEY_SIZE / 2)
    ++ tpl "' text-anchor='middle' dominant-baseline='central' fill='white' font-family='Arial, sans-serif' font-size='24' font-weight='bold'>"
    ++ text ++ tpl "</text></svg>" in
  let base64 := Buffer.toBase64 (Buffer.from svg) in
  lit "data:image/svg+xml;base64," ++ base64.

(** [createSingleLineImage(text)]: the font size follows the length. *)
Definition createSingleLineImage (this : ShowWanIP) (text : jsstring)
  : jsstring :=
  let len := List.length text in
  let fontSize :=
    if Nat.leb len 7 then 26
    else if Nat.leb len 11 then 22
    else if Nat.leb len 13 then 19
    else 17 in
  let svg :=
    tpl "<svg xmlns='http://www.w3.org/2000/svg' width='"
    ++ numberToString KEY_SIZE ++ tpl "' height='"
    ++ numberToString KEY_SIZE ++ tpl "' viewBox='0 0 "
    ++ numberToString KEY_SIZE ++ tpl " "
    ++ numberToString KEY_SIZE ++ tpl "'><rect width='"
    ++ numberToString KEY_SIZE ++ tpl "' height='"
    ++ numberToString KEY_SIZE ++ tpl "' fill='black'/><text x='"
    ++ numberToString (KEY_SIZE / 2) ++ tpl "' y='"
    ++ numberToString (KEY_SIZE / 2)
    ++ tpl "' text-anchor='middle' dominant-baseline='central' fill='white' font-family='Arial, sans-serif' font-size='"
    ++ numberToString fontSize ++ tpl "' font-weight='bold'>"
    ++ text ++ tpl "</text></svg>" in
  let base64 := Buffer.toBase64 (Buffer.from svg) in
  lit "data:image/svg+xml;base64," ++ base64.

(** [createTwoLineImage(octets)]: [xxx.xxx / xxx.xxx]. *)
Definition createTwoLineImage (this : ShowWanIP) (octets : list jsstring)
  : jsstring :=
  let line1 := at_index octets 0 ++ tpl "." ++ at_index octets 1 in
  let line2 := at_index octets 2 ++ tpl "." ++ at_index octets 3 in
  let fontSize := 28 in
  let lineHeight := fontSize * 1.3 in
  let totalHeight := lineHeight * 2 in
  let startY := (KEY_SIZE - totalHeight) / 2 + fontSize * 0.35 in
  let svg :=
    tpl "<svg xmlns='http://www.w3.org/2000/svg' width='"
    ++ numberToString KEY_SIZE ++ tpl "' height='"
    ++ numberToString KEY_SIZE ++ tpl "' viewBox='0 0 "
    ++ numberToString KEY_SIZE ++ tpl " "
    ++ numberToString KEY_SIZE ++ tpl "'><rect width='"
    ++ numberToString KEY_SIZE ++ tpl "' height='"
    ++ numberToString KEY_SIZE ++ tpl "' fill='black'/><text x='"
    ++ numberToString (KEY_SIZE / 2) ++ tpl "' y='"
    ++ numberToString (startY + lineHeight * 0.5)
    ++ tpl "' text-anchor='middle' dominant-baseline='central' fill='white' font-family='Arial, sans-serif' font-size='"
    ++ numberToString fontSize ++ tpl "' font-weight='bold'>"
    ++ line1 ++ tpl "</text><text x='"
    ++ numberToString (KEY_SIZE / 2) ++ tpl "' y='"
    ++ numberToString (startY + lineHeight * 1.5)
    ++ tpl "' text-anchor='middle' dominant-baseline='central' fill='white' font-family='Arial, sans-serif' font-size='"
    ++ numberToString fontSize ++ tpl "' font-weight='bold'>"
    ++ line2 ++ tpl "</text></svg>" in
  let base64 := Buffer.toBase64 (Buffer.from svg) in
  lit "data:image/svg+xml;base64," ++ base64.

(** [createFourLineImage(octets)]: [xxx / xxx / xxx / xxx]; the body of the
    loop [for (let i = 0; i < 4; i++)] appends one text element. *)
Definition createFourLineImage (this : ShowWanIP) (octets : list jsstring)
  : jsstring :=
  let fontSize := 30 in
  let lineHeight := fontSize * 1.1 in
  let totalHeight := lineHeight * 4 in
  let startY := (KEY_SIZE - totalHeight) / 2 + fontSize * 0.35 in
  let textElements :=
    fold_left
      (fun (textElements : jsstring) (i : Z) =>
         let y := startY + lineHeight * (numberOfZ i + 0.5) in
         textElements
         ++ (tpl "<text x='" ++ numberToString (KEY_SIZE / 2) ++ tpl "' y='"
             ++ numberToString y
             ++ tpl "' text-anchor='middle' dominant-baseline='central' fill='white' font-family='Arial, sans-serif' font-size='"
             ++ numberToString fontSize ++ tpl "' font-weight='bold'>"
             ++ at_index octets (Z.to_nat i) ++ tpl "</text>"))
      [0; 1; 2; 3]%Z [] in
  let svg :=
    tpl "<svg xmlns='http://www.w3.org/2000/svg' width='"
    ++ numberToString KEY_SIZE ++ tpl "' height='"
    ++ numberToString KEY_SIZE ++ tpl "' viewBox='0 0 "
    ++ numberToString KEY_SIZE ++ tpl " "
    ++ numberToString KEY_SIZE ++ tpl "'><rect width='"
    ++ numberToString KEY_SIZE ++ tpl "' height='"
    ++ numberToString KEY_SIZE ++ tpl "' fill='black'/>"
    ++ textElements ++ tpl "</svg>" in
  let base64 := Buffer.toBase64 (Buffer.from svg) in
  lit "data:image/svg+xml;base64," ++ base64.

(** [createTextImage(ip)]: the layout follows [this.displayLines] when the
    address has four segments; [switch] compares with [===]. *)
Definition createTextImage (this : ShowWanIP) (ip : jsstring) : jsstring :=
  let octets := split dot ip in
  if negb (Nat.eqb (List.length octets) 4) then createSingleLineImage this ip
  else if PrimFloat.eqb (displayLines this) 4
  then createFourLineImage this octets
  else if PrimFloat.eqb (displayLines this) 2
  then createTwoLineImage this octets
  else createSingleLineImage this ip.

(** ** The driver

    The methods that talk to the host run in a monad of state and
    exceptions: the state is the instance together with what the
    collaborators hold, and a rejected promise is a thrown error. *)

Inductive JsError :=
| HttpError (status : N)     (* [new Error(`HTTP error: ${status}`)] *)
| FetchError                 (* [fetch] or [response.text] rejects *)
| DisplayError               (* a call on the key rejects *)
| ExecError.                 (* the shell command fails *)

(** What the lookup service answers to the next request. *)
Inductive FetchOutcome :=
| Unreachable
| Response (ok : bool) (status : N) (text : option jsstring).

(** What the action asks of a key. *)
Inductive HostCommand :=
| SetImage (action : ActionHandle) (image : jsstring)
| ShowOk (action : ActionHandle)
| ShowAlert (action : ActionHandle).

Inductive LogEntry :=
| LogInfo (message : jsstring)
| LogError (message : jsstring) (error : JsError).

Record World := {
  self : ShowWanIP;
  network : FetchOutcome;
  displayOnline : bool;
  osPlatform : jsstring;                    (* [os.platform()] *)
  execSucceeds : bool;
  sent : list HostCommand;                  (* newest first *)
  executed : list jsstring;                 (* newest first *)
  intervals : list (TimerHandle * (N * ActionHandle));
                                            (* running: handle, period, key *)
  timeouts : list (N * ActionHandle);       (* pending, oldest first *)
  nextTimer : TimerHandle;
  logged : list LogEntry                    (* newest first *)
}.

Definition withSelf (f : ShowWanIP -> ShowWanIP) (w : World) : World :=
  {| self := f (self w); network := network w;
     displayOnline := displayOnline w; osPlatform := osPlatform w;
     execSucceeds := execSucceeds w; sent := sent w;
     executed := executed w; intervals := intervals w;
     timeouts := timeouts w; nextTimer := nextTimer w;
     logged := logged w |}.

Definition withSent (f : list HostCommand -> list HostCommand) (w : World)
  : World :=
  {| self := self w; network := network w;
     displayOnline := displayOnline w; osPlatform := osPlatform w;
     execSucceeds := execSucceeds w; sent := f (sent w);
     executed := executed w; intervals := intervals w;
     timeouts := timeouts w; nextTimer := nextTimer w;
     logged := logged w |}.

Definition withExecuted (f : list jsstring -> list jsstring) (w : World)
  : World :=
  {| self := self w; network := network w;
     displayOnline := displayOnline w; osPlatform := osPlatform w;
     execSucceeds := execSucceeds w; sent := sent w;
     executed := f (executed w); intervals := intervals w;
     timeouts := timeouts w; nextTimer := nextTimer w;
     logged := logged w |}.

Definition withIntervals
  (f : list (TimerHandle * (N * ActionHandle))
       -> list (TimerHandle * (N * ActionHandle)))
  (next : TimerHandle) (w : World) : World :=
  {| self := self w; network := network w;
     displayOnline := displayOnline w; osPlatform := osPlatform w;
     execSucceeds := execSucceeds w; sent := sent w;
     executed := executed w; intervals := f (intervals w);
     timeouts := timeouts w; nextTimer := next;
     logged := logged w |}.

Definition withTimeouts
  (f : list (N * ActionHandle) -> list (N * ActionHandle)) (w : World)
  : World :=
  {| self := self w; network := network w;
     displayOnline := displayOnline w; osPlatform := osPlatform w;
     execSucceeds := execSucceeds w; sent := sent w;
     executed := executed w; intervals := intervals w;
     timeouts := f (timeouts w); nextTimer := nextTimer w;
     logged := logged w |}.

Definition withLogged (f : list LogEntry -> list LogEntry) (w : World)
  : World :=
  {| self := self w; network := network w;
     displayOnline := displayOnline w; osPlatform := osPlatform w;
     execSucceeds := execSucceeds w; sent := sent w;
     executed := executed w; intervals := intervals w;
     timeouts := timeouts w; nextTimer := nextTimer w;
     logged := f (logged w) |}.

Inductive Result (A : Type) :=
| Returns (a : A)
| Throws (e : JsError).
Arguments Returns {A} a.
Arguments Throws {A} e.

Definition M (A : Type) : Type := World -> Result A * World.

Definition ret {A} (a : A) : M A := fun w => (Returns a, w).

Definition bind {A B} (m : M A) (k : A -> M B) : M B :=
  fun w =>
    match m w with
    | (Returns a, w') => k a w'
    | (Throws e, w') => (Throws e, w')
    end.

Definition throw {A} (e : JsError) : M A := fun w => (Throws e, w).

(** [try { body } catch (error) { handler }]: what [body] did to the state
    before it threw stays done. *)
Definition tryCatch {A} (body : M A) (handler : JsError -> M A) : M A :=
  fun w =>
    match body w with
    | (Returns a, w') => (Returns a, w')
    | (Throws e, w') => handler e w'
    end.

Notation "x <- m ;; k" := (bind m (fun x => k))
  (at level 61, m at next level, right associativity).
Notation "m ;; k" := (bind m (fun _ => k))
  (at level 61, right associativity).

Definition getThis : M ShowWanIP := fun w => (Returns (self w), w).

Definition setThis (f : ShowWanIP -> ShowWanIP) : M unit :=
  fun w => (Returns tt, withSelf f w).

Definition setRefreshInterval (t : option TimerHandle) : M unit :=
  setThis (fun this =>
    {| refreshInterval := t; currentIP := currentIP this;
       currentAction := currentAction this;
       displayLines := displayLines this |}).

Definition setCurrentIP (ip : jsstring) : M unit :=
  setThis (fun this =>
    {| refreshInterval := refreshInterval this; currentIP := ip;
       currentAction := currentAction this;
       displayLines := displayLines this |}).

Definition setCurrentAction (a : option ActionHandle) : M unit :=
  setThis (fun this =>
    {| refreshInterval := refreshInterval this;
       currentIP := currentIP this;
       currentAction := a; displayLines := displayLines this |}).

Definition setDisplayLines (n : float) : M unit :=
  setThis (fun this =>
    {| refreshInterval := refreshInterval this;
       currentIP := currentIP this;
       currentAction := currentAction this; displayLines := n |}).

(** [await fetch(url)] *)
Definition fetch (url : jsstring) : M (bool * N * option jsstring) :=
  fun w =>
    match network w with
    | Unreachable => (Throws FetchError, w)
    | Response ok status text => (Returns (ok, status, text), w)
    end.

(** [await response.text()] *)
Definition responseText (response : bool * N * option jsstring)
  : M jsstring :=
  match snd response with
  | Some text => ret text
  | None => throw FetchError
  end.

(** A call on a key reaches it when the display is connected, and rejects
    otherwise. *)
Definition toHost (c : HostCommand) : M unit :=
  fun w =>
    if displayOnline w then (Returns tt, withSent (cons c) w)
    else (Throws DisplayError, w).

(** [await action.setImage(image)], [await action.showOk()],
    [await action.showAlert()] *)
Definition setImage (action : ActionHandle) (image : jsstring) : M unit :=
  toHost (SetImage action image).
Definition showOk (action : ActionHandle) : M unit := toHost (ShowOk action).
Definition showAlert (action : ActionHandle) : M unit :=
  toHost (ShowAlert action).

Definition logger (entry : LogEntry) : M unit :=
  fun w => (Returns tt, withLogged (cons entry) w).

(** [setInterval(callback, ms)]: the callback refreshes the key [action]. *)
Definition setInterval (action : ActionHandle) (ms : N) : M TimerHandle :=
  fun w =>
    (Returns (nextTimer w),
     withIntervals (cons (nextTimer w, (ms, action))) (S (nextTimer w)) w).

(** [clearInterval(handle)] *)
Definition clearInterval (h : TimerHandle) : M unit :=
  fun w =>
    (Returns tt,
     withIntervals (filter (fun t => negb (Nat.eqb (fst t) h)))
                   (nextTimer w) w).

(** [setTimeout(callback, ms)]: the callback restores the image of the key
    [action]. *)
Definition setTimeout (action : ActionHandle) (ms : N) : M unit :=
  fun w => (Returns tt, withTimeouts (fun l => l ++ [(ms, action)]) w).

(** [a === b] on strings. *)
Fixpoint strictEquals (a b : jsstring) : bool :=
  match a, b with
  | [], [] => true
  | c :: a', d :: b' => N.eqb c d && strictEquals a' b'
  | _, _ => false
  end.

(** The double quote, which the shell commands contain beside
    apostrophes. *)
Definition dq : jsstring := [34%N].

(** [exec(command, callback)] inside [new Promise]: rejects with the error
    of the command, resolves without one. *)
Definition exec (command : jsstring) : M unit :=
  fun w =>
    (if execSucceeds w then Returns tt else Throws ExecError,
     withExecuted (cons command) w).

(** [copyToClipboard(text)] *)
Definition copyToClipboard (text : jsstring) : M unit :=
  fun w =>
    let os := osPlatform w in
    let command :=
      if strictEquals os (lit "darwin")
      then lit "printf '%s' " ++ dq ++ text ++ dq ++ lit " | pbcopy"
      else if strictEquals os (lit "win32")
      then lit "powershell -command " ++ dq
           ++ lit "Set-Clipboard -Value '" ++ text ++ lit "'" ++ dq
      else lit "printf '%s' " ++ dq ++ text ++ dq
           ++ lit " | xclip -selection clipboard" in
    exec command w.

(** [fetchAndDisplayIP(actionInstance)] *)
Definition fetchAndDisplayIP (actionInstance : ActionHandle) : M unit :=
  tryCatch
    (response <- fetch (lit "https://api.ipify.org") ;;
     (if negb (fst (fst response))
      then throw (HttpError (snd (fst response)))
      else ret tt) ;;
     text <- responseText response ;;
     setCurrentIP text ;;
     this <- getThis ;;
     setImage actionInstance (createTextImage this (currentIP this)) ;;
     this <- getThis ;;
     logger (LogInfo (lit "Fetched WAN IP: " ++ currentIP this)))
    (fun error =>
     setCurrentIP (lit "Error") ;;
     this <- getThis ;;
     setImage actionInstance (createStatusImage this (lit "No Conn")) ;;
     logger (LogError (lit "Failed to fetch WAN IP") error)).

(** [onWillAppear(ev)], with [ev.action] and [ev.payload.settings]. *)
Definition onWillAppear (action : ActionHandle) (settings : WanIPSettings)
  : M unit :=
  setCurrentAction (Some action) ;;
  setDisplayLines
    (match settingsDisplayLines settings with Some n => n | None => 1 end) ;;
  fetchAndDisplayIP action ;;
  handle <- setInterval action 300000%N ;;
  setRefreshInterval (Some handle).

(** [onDidReceiveSettings(ev)] *)
Definition onDidReceiveSettings (settings : WanIPSettings) : M unit :=
  setDisplayLines
    (match settingsDisplayLines settings with Some n => n | None => 1 end) ;;
  this <- getThis ;;
  match currentAction this with
  | Some action => setImage action (createTextImage this (currentIP this))
  | None => ret tt
  end.

(** [onWillDisappear(ev)] *)
Definition onWillDisappear : M unit :=
  this <- getThis ;;
  match refreshInterval this with
  | Some handle => clearInterval handle ;; setRefreshInterval None
  | None => ret tt
  end ;;
  setCurrentAction None.

(** [onKeyDown(ev)], with [ev.action]. *)
Definition onKeyDown (action : ActionHandle) : M unit :=
  tryCatch
    (this <- getThis ;;
     copyToClipboard (currentIP this) ;;
     this <- getThis ;;
     setImage action (createStatusImage this (lit "Copied!")) ;;
     setTimeout action 1500%N ;;
     showOk action)
    (fun error =>
     showAlert action ;;
     logger (LogError (lit "Failed to copy IP to clipboard") error)).

(** ** The event loop's side

    A running interval fires: its callback is
    [await this.fetchAndDisplayIP(ev.action)]. *)
Definition intervalFires (h : TimerHandle) : M unit :=
  fun w =>
    match find (fun t => Nat.eqb (fst t) h) (intervals w) with
    | Some (_, (_, action)) => fetchAndDisplayIP action w
    | None => (Returns tt, w)
    end.

(** The oldest pending timeout fires: its callback is
    [await ev.action.setImage(this.createTextImage(this.currentIP))]. *)
Definition timeoutFires : M unit :=
  fun w =>
    match timeouts w with
    | (_, action) :: rest =>
        (this <- getThis ;;
         setImage action (createTextImage this (currentIP this)))
          (withTimeouts (fun _ => rest) w)
    | [] => (Returns tt, w)
    end.

(** Does the fetch of [fetchAndDisplayIP] fail on this answer?  It does
    unless the status is 2xx and the body can be read. *)
Definition fetchFails (answer : FetchOutcome) : bool :=
  match answer with
  | Response true _ (Some _) => false
  | _ => true
  end.

(** An instance with the given address and line count, nothing else set. *)
Definition instanceWith (ip : jsstring) (lines : float) : ShowWanIP :=
  {| refreshInterval := None; currentIP := ip;
     currentAction := None; displayLines := lines |}.

(** The world a fresh instance starts in. *)
Definition startWorld (net : FetchOutcome) (online : bool) (os : jsstring)
  (execOk : bool) : World :=
  {| self := newShowWanIP; network := net; displayOnline := online;
     osPlatform := os; execSucceeds := execOk; sent := []; executed := [];
     intervals := []; timeouts := []; nextTimer := 0%nat; logged := [] |}.

(** Every running interval has a handle that was handed out. *)
Definition handlesAllocated (w : World) : Prop :=
  Forall (fun t => fst t < nextTimer w)%nat (intervals w).

End Plugin.

(* ================================================================= *)
(** * Rendered documents as data *)

Module Layout.
Import JS.
Local Open Scope float_scope.

(** One line of text of a rendered image: where its centre is (vertically),
    how big it is, what it says. *)
Record TextLine := {
  lineY : float;
  lineFontSize : float;
  lineText : jsstring
}.

(** The opening tag of a text element: centred horizontally on x = 72
    (anchor in the middle), white, bold, sans-serif. *)
Definition textOpen (y fontSize : float) : jsstring :=
  tpl "<text x='72' y='" ++ numberToString y
  ++ tpl "' text-anchor='middle' dominant-baseline='central' fill='white' font-family='Arial, sans-serif' font-size='"
  ++ numberToString fontSize ++ tpl "' font-weight='bold'>".

Definition textClose : jsstring := tpl "</text>".

Definition textElement (l : TextLine) : jsstring :=
  textOpen (lineY l) (lineFontSize l) ++ lineText l ++ textClose.

(** The start of every document: the 144 x 144 canvas and the black
    rectangle that covers it. *)
Definition canvasOpen : jsstring :=
  tpl "<svg xmlns='http://www.w3.org/2000/svg' width='144' height='144' viewBox='0 0 144 144'><rect width='144' height='144' fill='black'/>".

Definition canvasClose : jsstring := tpl "</svg>".

(** The document with the given lines of text, top to bottom. *)
Definition canvas (lines : list TextLine) : jsstring :=
  canvasOpen ++ List.concat (map textElement lines) ++ canvasClose.

Definition dataUriPrefix : jsstring := lit "data:image/svg+xml;base64,".

(** The payload that carries a document. *)
Definition dataUri (markup : jsstring) : jsstring :=
  dataUriPrefix ++ Buffer.toBase64 (Buffer.from markup).

Fixpoint stripPrefix (p s : jsstring) : option jsstring :=
  match p, s with
  | [], _ => Some s
  | c :: p', d :: s' => if N.eqb c d then stripPrefix p' s' else None
  | _ :: _, [] => None
  end.

(** Reading a payload back: the bytes of the document it carries. *)
Definition decodePayload (payload : jsstring) : option (list byte) :=
  match stripPrefix dataUriPrefix payload with
  | Some b64 => Buffer.fromBase64 b64
  | None => None
  end.

(** The layout of one centred line. *)
Definition singleLine (fontSize : float) (text : jsstring) : list TextLine :=
  [ {| lineY := 72; lineFontSize := fontSize; lineText := text |} ].

(** The font size of the single-line layout, by the length of the text. *)
Definition stepFontSize (len : nat) : float :=
  if Nat.leb len 7 then 26
  else if Nat.leb len 11 then 22
  else if Nat.leb len 13 then 19
  else 17.

(** The layout of two lines, from the four segments. *)
Definition twoLines (a b c d : jsstring) : list TextLine :=
  let fontSize := 28 in
  let lineHeight := 28 * 1.3 in
  let startY := (144 - 2 * lineHeight) / 2 + 28 * 0.35 in
  [ {| lineY := startY + lineHeight * 0.5; lineFontSize := fontSize;
       lineText := a ++ lit "." ++ b |};
    {| lineY := startY + lineHeight * 1.5; lineFontSize := fontSize;
       lineText := c ++ lit "." ++ d |} ].

(** The layout of four lines: line [i] is segment [i]. *)
Definition fourLines (segments : list jsstring) : list TextLine :=
  let fontSize := 30 in
  let lineHeight := 30 * 1.1 in
  let startY := (144 - lineHeight * 4) / 2 + 30 * 0.35 in
  map (fun i : nat =>
         {| lineY := startY + lineHeight * (numberOfZ (Z.of_nat i) + 0.5);
            lineFontSize := fontSize;
            lineText := nth i segments [] |})
      (seq 0 (List.length segments)).

(** The layout of an address: the line count asked for when the address has
    four segments, one line otherwise. *)
Definition addressLayout (mode : float) (address : jsstring)
  : list TextLine :=
  match split dot address with
  | [a; b; c; d] =>
      if PrimFloat.eqb mode 4 then fourLines [a; b; c; d]
      else if PrimFloat.eqb mode 2 then twoLines a b c d
      else singleLine (stepFontSize (List.length address)) address
  | _ => singleLine (stepFontSize (List.length address)) address
  end.



(** A cut between [a] and [b] is clean when it does not separate the two
    halves of a surrogate pair. *)
Definition cleanCut (a b : jsstring) : Prop :=
  andb (Buffer.isHighSurrogate (last a 0%N))
       (Buffer.isLowSurrogate (hd 0%N b)) = false.

(** The segments joined back with the separator between them. *)
Fixpoint join (sep : codeunit) (segments : list jsstring) : jsstring :=
  match segments with
  | [] => []
  | [seg] => seg
  | seg :: rest => seg ++ sep :: join sep rest
  end.

End Layout.

(* ================================================================= *)
(** * Properties *)

Import JS Buffer Plugin Layout.

(** ** Segments *)

Lemma split_not_nil sep s : split sep s <> [].
Proof.
  destruct s as [|c rest]; cbn [split]; [discriminate|].
  destruct (N.eqb c sep); [discriminate|].
  destruct (split sep rest); discriminate.
Qed.

Lemma split_cons_sep sep rest : split sep (sep :: rest) = [] :: split sep rest.
Proof. cbn [split]. now rewrite N.eqb_refl. Qed.

Lemma split_cons_other sep c rest :
  c <> sep ->
  split sep (c :: rest)
  = (c :: hd [] (split sep rest)) :: tl (split sep rest).
Proof.
  intros Hc. cbn [split].
  destruct (N.eqb_spec c sep) as [->|_]; [contradiction|].
  pose proof (split_not_nil sep rest) as Hne.
  destruct (split sep rest); [contradiction|reflexivity].
Qed.

Lemma split_length sep s :
  List.length (split sep s) = S (count_occ N.eq_dec s sep).
Proof.
  induction s as [|c rest IH]; [reflexivity|].
  destruct (N.eq_dec c sep) as [->|Hc].
  - rewrite split_cons_sep. cbn [List.length count_occ].
    destruct (N.eq_dec sep sep) as [_|F]; [|contradiction]. now rewrite IH.
  - rewrite split_cons_other by assumption.
    cbn [count_occ]. destruct (N.eq_dec c sep) as [E|_]; [contradiction|].
    rewrite <- IH. pose proof (split_not_nil sep rest) as Hne.
    destruct (split sep rest); [contradiction|reflexivity].
Qed.

Lemma join_cons sep seg segs :
  segs <> [] -> join sep (seg :: segs) = seg ++ sep :: join sep segs.
Proof. destruct segs; [contradiction|reflexivity]. Qed.

Lemma join_split sep s : join sep (split sep s) = s.
Proof.
  induction s as [|c rest IH]; [reflexivity|].
  pose proof (split_not_nil sep rest) as Hne.
  destruct (N.eq_dec c sep) as [->|Hc].
  - rewrite split_cons_sep, join_cons by assumption. now rewrite IH.
  - rewrite split_cons_other by assumption.
    destruct (split sep rest) as [|seg segs]; [contradiction|].
    cbn [hd tl]. destruct segs as [|seg' segs'].
    + cbn [join] in *. now rewrite IH.
    + rewrite join_cons by discriminate.
      rewrite join_cons in IH by discriminate.
      cbn [app]. now rewrite IH.
Qed.

Lemma split_no_sep sep s : Forall (fun seg => ~ In sep seg) (split sep s).
Proof.
  induction s as [|c rest IH].
  - repeat constructor. intros [].
  - pose proof (split_not_nil sep rest) as Hne.
    destruct (N.eq_dec c sep) as [->|Hc].
    + rewrite split_cons_sep. constructor; [intros []|exact IH].
    + rewrite split_cons_other by assumption.
      destruct (split sep rest) as [|seg segs]; [contradiction|].
      inversion IH as [|? ? Hseg Hsegs]; subst. cbn [hd tl].
      constructor; [|assumption].
      intros [E|Hin]; [congruence|contradiction].
Qed.

(** ** base64 and payloads *)

Lemma charSextet_sextetChar (s : sextet) : charSextet (sextetChar s) = Some s.
Proof.
  destruct s as [[[[[b5 b4] b3] b2] b1] b0].
  destruct b5, b4, b3, b2, b1, b0; vm_compute; reflexivity.
Qed.

Lemma sextetChar_not_pad (s : sextet) : N.eqb (sextetChar s) pad = false.
Proof.
  destruct s as [[[[[b5 b4] b3] b2] b1] b0].
  destruct b5, b4, b3, b2, b1, b0; vm_compute; reflexivity.
Qed.

Lemma fromBase64_toBase64_upto n :
  forall bs, (List.length bs <= n)%nat -> fromBase64 (toBase64 bs) = Some bs.
Proof.
  induction n as [|n IH]; intros bs Hlen.
  - destruct bs; [reflexivity|cbn in Hlen; lia].
  - destruct bs as [|a [|b [|c rest]]]; [reflexivity| | |].
    + cbn [toBase64].
      destruct (Byte.to_bits a)
        as [a0 [a1 [a2 [a3 [a4 [a5 [a6 a7]]]]]]] eqn:Ea.
      cbn [fromBase64]. rewrite !charSextet_sextetChar.
      rewrite N.eqb_refl. cbn [andb firstByte].
      now rewrite <- Ea, Byte.of_bits_to_bits.
    + cbn [toBase64].
      destruct (Byte.to_bits a)
        as [a0 [a1 [a2 [a3 [a4 [a5 [a6 a7]]]]]]] eqn:Ea.
      destruct (Byte.to_bits b)
        as [b0 [b1 [b2 [b3 [b4 [b5 [b6 b7]]]]]]] eqn:Eb.
      cbn [fromBase64]. rewrite !charSextet_sextetChar.
      rewrite sextetChar_not_pad, N.eqb_refl. cbn [andb firstByte secondByte].
      now rewrite <- Ea, <- Eb, !Byte.of_bits_to_bits.
    + cbn [toBase64].
      destruct (Byte.to_bits a)
        as [a0 [a1 [a2 [a3 [a4 [a5 [a6 a7]]]]]]] eqn:Ea.
      destruct (Byte.to_bits b)
        as [b0 [b1 [b2 [b3 [b4 [b5 [b6 b7]]]]]]] eqn:Eb.
      destruct (Byte.to_bits c)
        as [c0 [c1 [c2 [c3 [c4 [c5 [c6 c7]]]]]]] eqn:Ec.
      cbn [fromBase64]. rewrite !charSextet_sextetChar.
      rewrite !sextetChar_not_pad. cbn [andb].
      rewrite IH by (cbn in Hlen; lia).
      cbn [firstByte secondByte thirdByte].
      now rewrite <- Ea, <- Eb, <- Ec, !Byte.of_bits_to_bits.
Qed.

Lemma fromBase64_toBase64 bs : fromBase64 (toBase64 bs) = Some bs.
Proof. now apply (fromBase64_toBase64_upto (List.length bs)). Qed.

Lemma stripPrefix_app p s : stripPrefix p (p ++ s) = Some s.
Proof.
  induction p as [|c p IH]; [reflexivity|].
  cbn [stripPrefix app]. now rewrite N.eqb_refl.
Qed.

Lemma decodePayload_dataUri markup :
  decodePayload (dataUri markup) = Some (Buffer.from markup).
Proof.
  unfold decodePayload, dataUri.
  now rewrite stripPrefix_app, fromBase64_toBase64.
Qed.

(** ** UTF-8 *)

Lemma high_not_low c : isHighSurrogate c = true -> isLowSurrogate c = false.
Proof.
  unfold isHighSurrogate, isLowSurrogate. intros H.
  apply andb_true_iff in H as [_ H]. apply N.leb_le in H.
  apply andb_false_iff. left. apply N.leb_gt. lia.
Qed.

Lemma codePoints_app_upto n :
  forall a b, (List.length a <= n)%nat -> cleanCut a b ->
  codePoints (a ++ b) = codePoints a ++ codePoints b.
Proof.
  induction n as [|n IH]; intros a b Hlen Hcut.
  - destruct a; [reflexivity|cbn in Hlen; lia].
  - destruct a as [|c a']; [reflexivity|].
    assert (Hcut' : a' <> [] -> cleanCut a' b).
    { intros Hne. unfold cleanCut in *. destruct a'; [contradiction|exact Hcut]. }
    assert (Hlen' : (List.length a' <= n)%nat) by (cbn in Hlen; lia).
    cbn [app codePoints].
    destruct (isHighSurrogate c) eqn:Hc.
    + destruct a' as [|d a''].
      * cbn [app]. unfold cleanCut in Hcut. cbn [last] in Hcut.
        rewrite Hc in Hcut. cbn [andb] in Hcut.
        destruct b as [|e b']; [reflexivity|].
        cbn [hd] in Hcut. rewrite Hcut. reflexivity.
      * cbn [app]. destruct (isLowSurrogate d) eqn:Hd.
        -- destruct a'' as [|e a3].
           ++ reflexivity.
           ++ rewrite IH; [reflexivity|cbn in Hlen'; cbn; lia|].
              unfold cleanCut in *. exact Hcut.
        -- change (d :: a'' ++ b) with ((d :: a'') ++ b).
           rewrite IH; [reflexivity|assumption|].
           apply Hcut'. discriminate.
    + destruct a' as [|d a''].
      * destruct (isLowSurrogate c); reflexivity.
      * change (d :: a'' ++ b) with ((d :: a'') ++ b).
        rewrite IH; [|assumption|apply Hcut'; discriminate].
        destruct (isLowSurrogate c); reflexivity.
Qed.

Lemma from_app a b :
  cleanCut a b -> Buffer.from (a ++ b) = Buffer.from a ++ Buffer.from b.
Proof.
  intros H. unfold Buffer.from.
  rewrite (codePoints_app_upto (List.length a)) by auto.
  apply flat_map_app.
Qed.

Local Open Scope float_scope.

(** ** The image builders and their layouts *)

Ltac same_markup :=
  unfold canvas, singleLine, twoLines, fourLines, textElement, at_index,
    textOpen, textClose;
  cbn [List.concat map lineY lineFontSize lineText nth fold_left seq
       List.length];
  rewrite ?app_nil_r, <- ?app_assoc;
  vm_compute; reflexivity.

Ltac payload_of :=
  unfold dataUri, dataUriPrefix;
  apply (f_equal
           (fun m => lit "data:image/svg+xml;base64," ++ toBase64 (from m))).

Lemma status_layout this text :
  createStatusImage this text = dataUri (canvas (singleLine 24 text)).
Proof. unfold createStatusImage. payload_of. same_markup. Qed.

Lemma single_layout this text :
  createSingleLineImage this text
  = dataUri (canvas (singleLine (stepFontSize (List.length text)) text)).
Proof.
  unfold createSingleLineImage, stepFontSize. payload_of.
  destruct (Nat.leb (List.length text) 7);
    [|destruct (Nat.leb (List.length text) 11);
      [|destruct (Nat.leb (List.length text) 13)]];
  same_markup.
Qed.

Lemma two_layout this a b c d :
  createTwoLineImage this [a; b; c; d] = dataUri (canvas (twoLines a b c d)).
Proof. unfold createTwoLineImage. payload_of. same_markup. Qed.

Lemma four_layout this a b c d :
  createFourLineImage this [a; b; c; d]
  = dataUri (canvas (fourLines [a; b; c; d])).
Proof. unfold createFourLineImage. payload_of. same_markup. Qed.

Lemma textImage_fallback this ip :
  List.length (split dot ip) <> 4%nat ->
  createTextImage this ip = createSingleLineImage this ip.
Proof.
  intros H. unfold createTextImage.
  destruct (Nat.eqb_spec (List.length (split dot ip)) 4); [contradiction|].
  reflexivity.
Qed.

Lemma textImage_segments this ip a b c d :
  split dot ip = [a; b; c; d] ->
  createTextImage this ip
  = if PrimFloat.eqb (displayLines this) 4
    then createFourLineImage this [a; b; c; d]
    else if PrimFloat.eqb (displayLines this) 2
         then createTwoLineImage this [a; b; c; d]
         else createSingleLineImage this ip.
Proof. intros H. unfold createTextImage. rewrite H. reflexivity. Qed.

Lemma textImage_unrecognized this ip :
  PrimFloat.eqb (displayLines this) 4 = false ->
  PrimFloat.eqb (displayLines this) 2 = false ->
  createTextImage this ip = createSingleLineImage this ip.
Proof.
  intros H4 H2. unfold createTextImage. rewrite H4, H2.
  destruct (negb _); reflexivity.
Qed.

Lemma addressLayout_fallback mode ip :
  List.length (split dot ip) <> 4%nat ->
  addressLayout mode ip = singleLine (stepFontSize (List.length ip)) ip.
Proof.
  intros H. unfold addressLayout.
  destruct (split dot ip) as [|a [|b [|c [|d [|e r]]]]]; try reflexivity.
  now elim H.
Qed.

Lemma textImage_layout this ip :
  createTextImage this ip
  = dataUri (canvas (addressLayout (displayLines this) ip)).
Proof.
  destruct (Nat.eq_dec (List.length (split dot ip)) 4) as [E|NE].
  - destruct (split dot ip) as [|a [|b [|c [|d [|e r]]]]] eqn:Es;
      try discriminate E.
    rewrite (textImage_segments _ _ _ _ _ _ Es).
    unfold addressLayout. rewrite Es.
    destruct (PrimFloat.eqb (displayLines this) 4); [apply four_layout|].
    destruct (PrimFloat.eqb (displayLines this) 2); [apply two_layout|].
    apply single_layout.
  - rewrite textImage_fallback, addressLayout_fallback by assumption.
    apply single_layout.
Qed.

Lemma addressLayout_count mode ip :
  List.length (addressLayout mode ip) = 1%nat
  \/ List.length (addressLayout mode ip) = 2%nat
  \/ List.length (addressLayout mode ip) = 4%nat.
Proof.
  unfold addressLayout.
  destruct (split dot ip) as [|a [|b [|c [|d [|e r]]]]]; auto.
  destruct (PrimFloat.eqb mode 4); [auto|].
  destruct (PrimFloat.eqb mode 2); auto.
Qed.

(** ** The renderer, as specified *)

(** C1 (the code departs from it).  The placeholder ["Loading..."] ends in
    three dots, so it splits into the four segments ["Loading"], [""], [""],
    [""]: with two lines asked for it is drawn as ["Loading."] above ["."],
    with four lines as ["Loading"] above three empty lines, and neither
    image is the single-line one. *)
Theorem C1_placeholder_is_split_across_lines :
  split dot (lit "Loading...") = [lit "Loading"; []; []; []]
  /\ createTextImage (instanceWith (lit "Loading...") 2) (lit "Loading...")
     = dataUri (canvas
         [ {| lineY := 63.599999999999994; lineFontSize := 28;
              lineText := lit "Loading." |};
           {| lineY := 100; lineFontSize := 28; lineText := lit "." |} ])
  /\ createTextImage (instanceWith (lit "Loading...") 4) (lit "Loading...")
     = dataUri (canvas
         [ {| lineY := 33; lineFontSize := 30; lineText := lit "Loading" |};
           {| lineY := 66; lineFontSize := 30; lineText := [] |};
           {| lineY := 99; lineFontSize := 30; lineText := [] |};
           {| lineY := 132; lineFontSize := 30; lineText := [] |} ])
  /\ createTextImage (instanceWith (lit "Loading...") 2) (lit "Loading...")
     <> createSingleLineImage (instanceWith (lit "Loading...") 2)
          (lit "Loading...")
  /\ createTextImage (instanceWith (lit "Loading...") 4) (lit "Loading...")
     <> createSingleLineImage (instanceWith (lit "Loading...") 4)
          (lit "Loading...").
Proof.
  split; [reflexivity|].
  split; [rewrite textImage_layout; reflexivity|].
  split; [rewrite textImage_layout; reflexivity|].
  split; intros H; apply (f_equal (@List.length _)) in H;
    vm_compute in H; discriminate H.
Qed.

(** C2.  An address of four segments drawn with [displayLines = 2] is two
    text elements: the first two segments joined by a dot above the last two
    joined by a dot, both at font size 28, with line height 28 x 1.3, start
    offset (144 - 2 x lineHeight) / 2 + 28 x 0.35 and centres at
    startY + lineHeight x 0.5 and startY + lineHeight x 1.5. *)
Theorem C2_two_lines this s a b c d :
  displayLines this = 2 ->
  split dot s = [a; b; c; d] ->
  let fontSize := 28 in
  let lineHeight := 28 * 1.3 in
  let startY := (144 - 2 * lineHeight) / 2 + 28 * 0.35 in
  createTextImage this s
  = dataUri (canvas
      [ {| lineY := startY + lineHeight * 0.5; lineFontSize := fontSize;
           lineText := a ++ lit "." ++ b |};
        {| lineY := startY + lineHeight * 1.5; lineFontSize := fontSize;
           lineText := c ++ lit "." ++ d |} ]).
Proof.
  intros Hmode Hs. cbv zeta.
  rewrite (textImage_segments _ _ _ _ _ _ Hs), Hmode.
  apply two_layout.
Qed.

(** The address ["8.8.8.8"] on two lines: ["8.8"] and ["8.8"]. *)
Lemma C2_two_lines_witness :
  displayLines (instanceWith (lit "8.8.8.8") 2) = 2
  /\ split dot (lit "8.8.8.8") = [lit "8"; lit "8"; lit "8"; lit "8"]
  /\ createTextImage (instanceWith (lit "8.8.8.8") 2) (lit "8.8.8.8")
     = dataUri (canvas
         [ {| lineY := 63.599999999999994; lineFontSize := 28;
              lineText := lit "8.8" |};
           {| lineY := 100; lineFontSize := 28; lineText := lit "8.8" |} ]).
Proof.
  split; [reflexivity|]. split; [reflexivity|].
  exact (C2_two_lines (instanceWith (lit "8.8.8.8") 2) (lit "8.8.8.8")
           (lit "8") (lit "8") (lit "8") (lit "8") eq_refl eq_refl).
Defined.

(** C3.  An address of four segments drawn with [displayLines = 4] is four
    text elements, one segment each in the order of the address, at font
    size 30, with line height 30 x 1.1 and line [i] centred at
    startY + lineHeight x (i + 0.5). *)
Theorem C3_four_lines this s a b c d :
  displayLines this = 4 ->
  split dot s = [a; b; c; d] ->
  let fontSize := 30 in
  let lineHeight := 30 * 1.1 in
  let startY := (144 - lineHeight * 4) / 2 + 30 * 0.35 in
  createTextImage this s
  = dataUri (canvas
      [ {| lineY := startY + lineHeight * (0 + 0.5);
           lineFontSize := fontSize; lineText := a |};
        {| lineY := startY + lineHeight * (1 + 0.5);
           lineFontSize := fontSize; lineText := b |};
        {| lineY := startY + lineHeight * (2 + 0.5);
           lineFontSize := fontSize; lineText := c |};
        {| lineY := startY + lineHeight * (3 + 0.5);
           lineFontSize := fontSize; lineText := d |} ]).
Proof.
  intros Hmode Hs. cbv zeta.
  rewrite (textImage_segments _ _ _ _ _ _ Hs), Hmode.
  apply four_layout.
Qed.

(** The address ["203.0.113.77"] on four lines: ["203"], ["0"], ["113"],
    ["77"]. *)
Lemma C3_four_lines_witness :
  displayLines (instanceWith (lit "203.0.113.77") 4) = 4
  /\ split dot (lit "203.0.113.77")
     = [lit "203"; lit "0"; lit "113"; lit "77"]
  /\ createTextImage (instanceWith (lit "203.0.113.77") 4)
       (lit "203.0.113.77")
     = dataUri (canvas
         [ {| lineY := 33; lineFontSize := 30; lineText := lit "203" |};
           {| lineY := 66; lineFontSize := 30; lineText := lit "0" |};
           {| lineY := 99; lineFontSize := 30; lineText := lit "113" |};
           {| lineY := 132; lineFontSize := 30; lineText := lit "77" |} ]).
Proof.
  split; [reflexivity|]. split; [reflexivity|].
  exact (C3_four_lines (instanceWith (lit "203.0.113.77") 4)
           (lit "203.0.113.77") (lit "203") (lit "0") (lit "113") (lit "77")
           eq_refl eq_refl).
Defined.

(** C4.  An address of four non-empty segments drawn with [displayLines = 1]
    is one text element that holds the address as it is, at the font size
    of the step function of its length: up to 7 is 26, up to 11 is 22, up to
    13 is 19, more is 17. *)
Theorem C4_single_line this s :
  displayLines this = 1 ->
  List.length (split dot s) = 4%nat ->
  Forall (fun seg => seg <> []) (split dot s) ->
  createTextImage this s
  = dataUri (canvas
      [ {| lineY := 72;
           lineFontSize :=
             if Nat.leb (List.length s) 7 then 26
             else if Nat.leb (List.length s) 11 then 22
             else if Nat.leb (List.length s) 13 then 19
             else 17;
           lineText := s |} ])
  /\ stepFontSize 7 = 26 /\ stepFontSize 8 = 22 /\ stepFontSize 11 = 22
  /\ stepFontSize 12 = 19 /\ stepFontSize 14 = 17.
Proof.
  intros Hmode Hlen _. split; [|repeat split].
  rewrite textImage_unrecognized by (rewrite Hmode; reflexivity).
  apply single_layout.
Qed.

Lemma C4_single_line_witness :
  createTextImage (instanceWith (lit "203.0.113.77") 1) (lit "203.0.113.77")
  = dataUri (canvas
      [ {| lineY := 72; lineFontSize := 19;
           lineText := lit "203.0.113.77" |} ]).
Proof.
  refine (proj1 (C4_single_line (instanceWith (lit "203.0.113.77") 1)
                   (lit "203.0.113.77") eq_refl eq_refl _)).
  vm_compute. repeat constructor; discriminate.
Defined.

(** C5.  [createTextImage] always returns a payload: for every instance and
    every string it is the data URI of a document of one, two or four lines,
    which reads back as the bytes of that document; and a [displayLines]
    that is neither 4 nor 2 gives the single-line image. *)
Theorem C5_text_image_total this ip :
  (exists lines,
     createTextImage this ip = dataUri (canvas lines)
     /\ decodePayload (createTextImage this ip)
        = Some (Buffer.from (canvas lines))
     /\ (List.length lines = 1 \/ List.length lines = 2
         \/ List.length lines = 4)%nat)
  /\ (PrimFloat.eqb (displayLines this) 4 = false ->
      PrimFloat.eqb (displayLines this) 2 = false ->
      createTextImage this ip = createSingleLineImage this ip
      /\ createTextImage this ip
         = dataUri (canvas (singleLine (stepFontSize (List.length ip)) ip))).
Proof.
  split.
  - exists (addressLayout (displayLines this) ip).
    rewrite textImage_layout, decodePayload_dataUri.
    repeat split. apply addressLayout_count.
  - intros H4 H2. rewrite textImage_unrecognized by assumption.
    split; [reflexivity|apply single_layout].
Qed.

(** With [displayLines = 3] the address ["8.8.8.8"] is drawn on one line. *)
Lemma C5_text_image_total_witness :
  createTextImage (instanceWith [] 3) (lit "8.8.8.8")
  = dataUri (canvas (singleLine 26 (lit "8.8.8.8"))).
Proof.
  exact (proj2 (proj2 (C5_text_image_total (instanceWith [] 3)
                         (lit "8.8.8.8")) eq_refl eq_refl)).
Defined.

(** C6.  [createStatusImage] draws every word as exactly one text element,
    centred, at font size 24. *)
Theorem C6_status_single_line this text :
  createStatusImage this text
  = dataUri (canvas
      [ {| lineY := 72; lineFontSize := 24; lineText := text |} ]).
Proof. apply status_layout. Qed.


(** C8.  The image of an address depends on the address and on
    [displayLines] alone, and the image of a word on the word alone: no
    other field of the instance is read. *)
Theorem C8_renderer_deterministic this1 this2 ip1 ip2 :
  displayLines this1 = displayLines this2 ->
  ip1 = ip2 ->
  createTextImage this1 ip1 = createTextImage this2 ip2
  /\ createStatusImage this1 ip1 = createStatusImage this2 ip2.
Proof.
  intros Hmode ->. split.
  - now rewrite !textImage_layout, Hmode.
  - now rewrite !status_layout.
Qed.

Lemma C8_renderer_deterministic_witness :
  createTextImage (instanceWith (lit "Loading...") 2) (lit "8.8.8.8")
  = createTextImage
      {| refreshInterval := Some 7%nat; currentIP := lit "Error";
         currentAction := Some 1%nat; displayLines := 2 |} (lit "8.8.8.8").
Proof.
  exact (proj1 (C8_renderer_deterministic
                  (instanceWith (lit "Loading...") 2)
                  {| refreshInterval := Some 7%nat; currentIP := lit "Error";
                     currentAction := Some 1%nat; displayLines := 2 |}
                  (lit "8.8.8.8") (lit "8.8.8.8") eq_refl eq_refl)).
Defined.

(** ** The driver *)

Ltac run :=
  cbv beta iota zeta delta
    [fetchAndDisplayIP onWillAppear onDidReceiveSettings onWillDisappear
     onKeyDown intervalFires timeoutFires copyToClipboard exec tryCatch bind
     ret throw fetch responseText getThis setThis setRefreshInterval
     setCurrentIP setCurrentAction setDisplayLines toHost setImage showOk
     showAlert logger setInterval clearInterval setTimeout withSelf withSent
     withExecuted withIntervals withTimeouts withLogged self network
     displayOnline osPlatform execSucceeds sent executed intervals timeouts
     nextTimer logged refreshInterval currentIP currentAction displayLines];
  cbn [fst snd negb].

Ltac open_world w :=
  destruct w as [[rI cIP cA dL] net on os ex snt exd ivs tos nt lg];
  cbn [self network displayOnline osPlatform execSucceeds sent executed
       intervals timeouts nextTimer logged refreshInterval currentIP
       currentAction displayLines] in *;
  subst.



(** ** Text in the markup *)



Lemma last_app_nonempty {A} (a b : list A) d :
  b <> [] -> last (a ++ b) d = last b d.
Proof.
  intros Hb. induction a as [|x a IH]; [reflexivity|].
  cbn [app]. rewrite <- IH. cbn [last].
  destruct (a ++ b) eqn:E; [|reflexivity].
  apply app_eq_nil in E as [_ E]. contradiction.
Qed.

Lemma from_after_tag (p x : jsstring) :
  last p 0%N = 62%N -> Buffer.from (p ++ x) = Buffer.from p ++ Buffer.from x.
Proof.
  intros H. apply from_app. unfold cleanCut. now rewrite H.
Qed.

Lemma from_before_tag (x q : jsstring) :
  hd 0%N q = 60%N -> Buffer.from (x ++ q) = Buffer.from x ++ Buffer.from q.
Proof.
  intros H. apply from_app. unfold cleanCut. rewrite H. apply andb_false_r.
Qed.

Lemma textOpen_closes (p : jsstring) y f : last (p ++ textOpen y f) 0%N = 62%N.
Proof.
  unfold textOpen. rewrite !app_assoc.
  rewrite last_app_nonempty by discriminate. reflexivity.
Qed.

Lemma canvas_singleLine f text :
  canvas (singleLine f text)
  = (canvasOpen ++ textOpen 72 f) ++ text ++ (textClose ++ canvasClose).
Proof.
  unfold canvas, singleLine, textElement.
  cbn [map List.concat lineY lineFontSize lineText].
  now rewrite app_nil_r, <- !app_assoc.
Qed.








(** ** More on the renderer *)

(** X1.  The guard of [createTextImage]: an address that does not split
    into four segments is drawn by [createSingleLineImage], whatever
    [displayLines] holds. *)
Theorem fallback_to_single_line this ip :
  List.length (split dot ip) <> 4%nat ->
  createTextImage this ip = createSingleLineImage this ip
  /\ createTextImage this ip
     = dataUri (canvas (singleLine (stepFontSize (List.length ip)) ip)).
Proof.
  intros H. rewrite textImage_fallback by assumption.
  split; [reflexivity|apply single_layout].
Qed.

Lemma fallback_to_single_line_witness :
  createTextImage (instanceWith [] 4) (lit "Error")
  = dataUri (canvas (singleLine 26 (lit "Error"))).
Proof.
  refine (proj2 (fallback_to_single_line (instanceWith [] 4) (lit "Error")
                   _)).
  vm_compute. discriminate.
Defined.

(** X2.  The guard counts dots and nothing else: an address takes the
    layout that [displayLines] asks for exactly when it holds three dots,
    whatever stands between them. *)
Theorem layout_follows_dot_count this ip :
  (count_occ N.eq_dec ip dot <> 3%nat ->
   createTextImage this ip = createSingleLineImage this ip)
  /\ (count_occ N.eq_dec ip dot = 3%nat ->
      exists a b c d,
        split dot ip = [a; b; c; d]
        /\ createTextImage this ip
           = if PrimFloat.eqb (displayLines this) 4
             then createFourLineImage this [a; b; c; d]
             else if PrimFloat.eqb (displayLines this) 2
                  then createTwoLineImage this [a; b; c; d]
                  else createSingleLineImage this ip).
Proof.
  pose proof (split_length dot ip) as Hlen. split; intros H.
  - apply textImage_fallback. lia.
  - rewrite H in Hlen.
    destruct (split dot ip) as [|a [|b [|c [|d [|e r]]]]] eqn:Es;
      try discriminate Hlen.
    exists a, b, c, d. split; [reflexivity|].
    now apply textImage_segments.
Qed.

Lemma layout_follows_dot_count_witness :
  createTextImage (instanceWith [] 2) (lit "a.b")
  = createSingleLineImage (instanceWith [] 2) (lit "a.b")
  /\ exists a b c d,
       split dot (lit "...") = [a; b; c; d]
       /\ createTextImage (instanceWith [] 2) (lit "...")
          = createTwoLineImage (instanceWith [] 2) [a; b; c; d].
Proof.
  split.
  - refine (proj1 (layout_follows_dot_count (instanceWith [] 2) (lit "a.b"))
              _).
    vm_compute. discriminate.
  - exact (proj2 (layout_follows_dot_count (instanceWith [] 2) (lit "..."))
             eq_refl).
Defined.

(** X3.  Nothing of the address is lost on two lines: the two lines, joined
    by a dot, are the address again. *)
Theorem two_lines_rebuild_address this s a b c d :
  displayLines this = 2 ->
  split dot s = [a; b; c; d] ->
  exists l1 l2,
    createTextImage this s = dataUri (canvas [l1; l2])
    /\ lineText l1 ++ lit "." ++ lineText l2 = s.
Proof.
  intros Hmode Hs.
  assert (H : createTextImage this s = dataUri (canvas (twoLines a b c d))).
  { rewrite (textImage_segments _ _ _ _ _ _ Hs), Hmode. apply two_layout. }
  unfold twoLines in H. do 2 eexists. split; [exact H|].
  cbn [lineText]. pose proof (join_split dot s) as J. rewrite Hs in J.
  rewrite <- J. cbn [join]. now rewrite <- !app_assoc.
Qed.

Lemma two_lines_rebuild_address_witness :
  exists l1 l2,
    createTextImage (instanceWith [] 2) (lit "10.0.0.1")
    = dataUri (canvas [l1; l2])
    /\ lineText l1 ++ lit "." ++ lineText l2 = lit "10.0.0.1".
Proof.
  exact (two_lines_rebuild_address (instanceWith [] 2) (lit "10.0.0.1")
           (lit "10") (lit "0") (lit "0") (lit "1") eq_refl eq_refl).
Defined.

(** X4.  On four lines the texts of the lines are the segments of the
    address: joined by dots they are the address again, and no line holds a
    dot. *)
Theorem four_lines_rebuild_address this s a b c d :
  displayLines this = 4 ->
  split dot s = [a; b; c; d] ->
  exists lines,
    createTextImage this s = dataUri (canvas lines)
    /\ join dot (map lineText lines) = s
    /\ Forall (fun l => ~ In dot (lineText l)) lines.
Proof.
  intros Hmode Hs.
  assert (H : createTextImage this s
              = dataUri (canvas (fourLines [a; b; c; d]))).
  { rewrite (textImage_segments _ _ _ _ _ _ Hs), Hmode. apply four_layout. }
  unfold fourLines in H. cbn [List.length seq map nth] in H.
  eexists. split; [exact H|]. cbn [map lineText].
  pose proof (join_split dot s) as J. rewrite Hs in J.
  pose proof (split_no_sep dot s) as F. rewrite Hs in F.
  split; [exact J|].
  inversion F as [|? ? Fa F1]; subst. inversion F1 as [|? ? Fb F2]; subst.
  inversion F2 as [|? ? Fc F3]; subst. inversion F3 as [|? ? Fd F4]; subst.
  repeat constructor; assumption.
Qed.

Lemma four_lines_rebuild_address_witness :
  exists lines,
    createTextImage (instanceWith [] 4) (lit "10.0.0.1")
    = dataUri (canvas lines)
    /\ join dot (map lineText lines) = lit "10.0.0.1"
    /\ Forall (fun l => ~ In dot (lineText l)) lines.
Proof.
  exact (four_lines_rebuild_address (instanceWith [] 4) (lit "10.0.0.1")
           (lit "10") (lit "0") (lit "0") (lit "1") eq_refl eq_refl).
Defined.

(** X5.  The font of the single line never grows with the text: of two
    texts the longer one gets a size that is at most the size of the
    shorter one, and every size is one of 26, 22, 19 and 17. *)
Theorem single_line_font_shrinks this t1 t2 :
  (List.length t1 <= List.length t2)%nat ->
  exists f1 f2,
    createSingleLineImage this t1 = dataUri (canvas (singleLine f1 t1))
    /\ createSingleLineImage this t2 = dataUri (canvas (singleLine f2 t2))
    /\ PrimFloat.leb f2 f1 = true
    /\ In f1 [26; 22; 19; 17] /\ In f2 [26; 22; 19; 17].
Proof.
  intros Hle.
  exists (stepFontSize (List.length t1)), (stepFontSize (List.length t2)).
  rewrite !single_layout. do 2 (split; [reflexivity|]).
  unfold stepFontSize.
  destruct (Nat.leb_spec (List.length t1) 7);
  destruct (Nat.leb_spec (List.length t1) 11);
  destruct (Nat.leb_spec (List.length t1) 13);
  destruct (Nat.leb_spec (List.length t2) 7);
  destruct (Nat.leb_spec (List.length t2) 11);
  destruct (Nat.leb_spec (List.length t2) 13);
  try lia; (split; [reflexivity|]); cbn [In]; auto 6.
Qed.

Lemma single_line_font_shrinks_witness :
  exists f1 f2,
    createSingleLineImage newShowWanIP (lit "1.1.1.1")
    = dataUri (canvas (singleLine f1 (lit "1.1.1.1")))
    /\ createSingleLineImage newShowWanIP (lit "255.255.255.255")
       = dataUri (canvas (singleLine f2 (lit "255.255.255.255")))
    /\ PrimFloat.leb f2 f1 = true
    /\ In f1 [26; 22; 19; 17] /\ In f2 [26; 22; 19; 17].
Proof.
  refine (single_line_font_shrinks newShowWanIP (lit "1.1.1.1")
            (lit "255.255.255.255") _).
  vm_compute. lia.
Defined.

Lemma some_inj {A} (x y : A) : Some x = Some y -> x = y.
Proof. intros H. now inversion H. Qed.

(** X6.  Two words have the same status image only when they have the same
    UTF-8 bytes: the image tells the words apart. *)
Theorem status_image_tells_words_apart this t1 t2 :
  createStatusImage this t1 = createStatusImage this t2 ->
  Buffer.from t1 = Buffer.from t2.
Proof.
  intros H. apply (f_equal decodePayload) in H.
  rewrite !status_layout, !decodePayload_dataUri in H.
  apply some_inj in H.
  rewrite !canvas_singleLine in H.
  rewrite (from_after_tag (_ ++ textOpen _ _)) in H by apply textOpen_closes.
  rewrite (from_after_tag (_ ++ textOpen _ _) (t2 ++ _)) in H
    by apply textOpen_closes.
  apply app_inv_head in H.
  rewrite !(from_before_tag _ (textClose ++ canvasClose)) in H
    by reflexivity.
  now apply app_inv_tail in H.
Qed.

Lemma status_image_tells_words_apart_witness :
  Buffer.from (lit "Copied!") = Buffer.from (lit "Copied!").
Proof.
  exact (status_image_tells_words_apart newShowWanIP (lit "Copied!")
           (lit "Copied!") eq_refl).
Defined.

Lemma sextetChar_ascii (s : sextet) : (sextetChar s < 128)%N.
Proof.
  destruct s as [[[[[b5 b4] b3] b2] b1] b0].
  destruct b5, b4, b3, b2, b1, b0; vm_compute; reflexivity.
Qed.

Lemma toBase64_ascii_upto n :
  forall bs, (List.length bs <= n)%nat ->
  Forall (fun c => (c < 128)%N) (toBase64 bs).
Proof.
  assert (Hpad : (pad < 128)%N) by reflexivity.
  induction n as [|n IH]; intros bs Hlen.
  - destruct bs; [constructor|cbn in Hlen; lia].
  - destruct bs as [|a [|b [|c rest]]]; [constructor| | |]; cbn [toBase64].
    + destruct (Byte.to_bits a)
        as [a0 [a1 [a2 [a3 [a4 [a5 [a6 a7]]]]]]].
      repeat constructor; auto using sextetChar_ascii.
    + destruct (Byte.to_bits a)
        as [a0 [a1 [a2 [a3 [a4 [a5 [a6 a7]]]]]]].
      destruct (Byte.to_bits b)
        as [b0 [b1 [b2 [b3 [b4 [b5 [b6 b7]]]]]]].
      repeat constructor; auto using sextetChar_ascii.
    + destruct (Byte.to_bits a)
        as [a0 [a1 [a2 [a3 [a4 [a5 [a6 a7]]]]]]].
      destruct (Byte.to_bits b)
        as [b0 [b1 [b2 [b3 [b4 [b5 [b6 b7]]]]]]].
      destruct (Byte.to_bits c)
        as [c0 [c1 [c2 [c3 [c4 [c5 [c6 c7]]]]]]].
      repeat (constructor; [apply sextetChar_ascii|]).
      apply IH. cbn in Hlen. lia.
Qed.

Lemma dataUri_ascii markup : Forall (fun c => (c < 128)%N) (dataUri markup).
Proof.
  unfold dataUri. apply Forall_app. split.
  - vm_compute. repeat constructor.
  - now apply (toBase64_ascii_upto (List.length (Buffer.from markup))).
Qed.

(** X7.  Every image is plain ASCII, whatever characters the address or the
    word holds: each code unit of the payload is below 128. *)
Theorem payload_is_ascii this s :
  Forall (fun c => (c < 128)%N) (createTextImage this s)
  /\ Forall (fun c => (c < 128)%N) (createStatusImage this s).
Proof.
  rewrite textImage_layout, status_layout.
  split; apply dataUri_ascii.
Qed.

(** ** More on the driver *)

(** X8.  With the display disconnected [fetchAndDisplayIP] rejects, and it
    leaves ["Error"] as the cached address whatever the service answered:
    an address that was fetched is dropped.  Nothing is sent, nothing is
    logged. *)
Theorem fetch_with_display_offline action w :
  displayOnline w = false ->
  fst (fetchAndDisplayIP action w) = Throws DisplayError
  /\ currentIP (self (snd (fetchAndDisplayIP action w))) = lit "Error"
  /\ sent (snd (fetchAndDisplayIP action w)) = sent w
  /\ logged (snd (fetchAndDisplayIP action w)) = logged w.
Proof.
  intros Hoff. open_world w.
  destruct net as [|[|] status [text|]]; run; repeat split.
Qed.

Lemma fetch_with_display_offline_witness :
  currentIP
    (self (snd (fetchAndDisplayIP 0%nat
             (startWorld (Response true 200 (Some (lit "8.8.8.8"))) false
                (lit "darwin") true))))
  = lit "Error".
Proof.
  exact (proj1 (proj2 (fetch_with_display_offline 0%nat
           (startWorld (Response true 200 (Some (lit "8.8.8.8"))) false
              (lit "darwin") true) eq_refl))).
Defined.

(** X9.  [fetchAndDisplayIP] touches the cached address, the key and the
    log, and nothing else: the line count, the current action, the timers,
    and the commands that were run stay as they were, and at most one
    command goes to the key. *)
Theorem fetch_leaves_the_rest action w :
  let w' := snd (fetchAndDisplayIP action w) in
  displayLines (self w') = displayLines (self w)
  /\ currentAction (self w') = currentAction (self w)
  /\ refreshInterval (self w') = refreshInterval (self w)
  /\ intervals w' = intervals w
  /\ timeouts w' = timeouts w
  /\ nextTimer w' = nextTimer w
  /\ executed w' = executed w
  /\ (sent w' = sent w \/ exists image, sent w' = SetImage action image :: sent w).
Proof.
  cbv zeta. open_world w.
  destruct net as [|[|] status [text|]]; destruct on; run;
    repeat split; eauto.
Qed.

(** X10.  With the display connected [fetchAndDisplayIP] never rejects and
    logs exactly one line: the address it fetched, or the failure with its
    cause (the status of an answer that is not 2xx, whose body is not
    read). *)
Theorem fetch_logs_once action w :
  displayOnline w = true ->
  fst (fetchAndDisplayIP action w) = Returns tt
  /\ logged (snd (fetchAndDisplayIP action w))
     = match network w with
       | Unreachable =>
           LogError (lit "Failed to fetch WAN IP") FetchError
       | Response false status _ =>
           LogError (lit "Failed to fetch WAN IP") (HttpError status)
       | Response true _ None =>
           LogError (lit "Failed to fetch WAN IP") FetchError
       | Response true _ (Some text) =>
           LogInfo (lit "Fetched WAN IP: " ++ text)
       end :: logged w.
Proof.
  intros Hon. open_world w.
  destruct net as [|[|] status [text|]]; run; split; reflexivity.
Qed.

Lemma fetch_logs_once_witness :
  logged (snd (fetchAndDisplayIP 0%nat
            (startWorld (Response false 503 None) true (lit "win32") true)))
  = [LogError (lit "Failed to fetch WAN IP") (HttpError 503)].
Proof.
  exact (proj2 (fetch_logs_once 0%nat
           (startWorld (Response false 503 None) true (lit "win32") true)
           eq_refl)).
Defined.

(** X11.  [onDidReceiveSettings] stores the line count of the settings, 1
    when they hold none, and redraws the cached address on the current key
    with it; without a current key it sends nothing.  It does not fetch:
    the cached address stays. *)
Theorem settings_redraw_cached_address settings w :
  displayOnline w = true ->
  let mode :=
    match settingsDisplayLines settings with Some n => n | None => 1 end in
  let w' := snd (onDidReceiveSettings settings w) in
  fst (onDidReceiveSettings settings w) = Returns tt
  /\ displayLines (self w') = mode
  /\ currentIP (self w') = currentIP (self w)
  /\ sent w'
     = match currentAction (self w) with
       | Some action =>
           SetImage action
             (createTextImage (instanceWith [] mode) (currentIP (self w)))
             :: sent w
       | None => sent w
       end.
Proof.
  intros Hon. cbv zeta. open_world w.
  destruct cA as [action|]; run; repeat split.
Qed.

Lemma settings_redraw_cached_address_witness :
  sent (snd (onDidReceiveSettings {| settingsDisplayLines := None |}
          (snd (onWillAppear 3%nat {| settingsDisplayLines := Some 4 |}
             (startWorld (Response true 200 (Some (lit "8.8.8.8"))) true
                (lit "darwin") true)))))
  = [ SetImage 3%nat
        (createTextImage (instanceWith [] 1) (lit "8.8.8.8"));
      SetImage 3%nat
        (createTextImage (instanceWith [] 4) (lit "8.8.8.8")) ].
Proof.
  exact (proj2 (proj2 (proj2
    (settings_redraw_cached_address {| settingsDisplayLines := None |}
       (snd (onWillAppear 3%nat {| settingsDisplayLines := Some 4 |}
          (startWorld (Response true 200 (Some (lit "8.8.8.8"))) true
             (lit "darwin") true)))
       eq_refl)))).
Defined.

(** X12.  After a fetch that failed the key shows ["No Conn"]; a change of
    settings then replaces it by the cached sentinel drawn as an address:
    the word ["Error"] on one line at font size 26, whatever line count the
    settings ask for. *)
Theorem settings_after_failure_show_error action settings w :
  displayOnline w = true ->
  currentAction (self w) = Some action ->
  fetchFails (network w) = true ->
  let w1 := snd (fetchAndDisplayIP action w) in
  let w2 := snd (onDidReceiveSettings settings w1) in
  sent w2
  = SetImage action (dataUri (canvas (singleLine 26 (lit "Error"))))
      :: SetImage action
           (dataUri (canvas (singleLine 24 (lit "No Conn"))))
      :: sent w.
Proof.
  intros Hon Hact Hfail. cbv zeta. open_world w.
  assert (E : forall this,
             createTextImage this (lit "Error")
             = dataUri (canvas (singleLine 26 (lit "Error")))).
  { intros this. rewrite textImage_fallback by (vm_compute; discriminate).
    apply single_layout. }
  destruct net as [|[|] status [text|]]; try discriminate Hfail; run;
    rewrite E, status_layout; reflexivity.
Qed.

Lemma settings_after_failure_show_error_witness :
  let w := snd (setCurrentAction (Some 0%nat)
                  (startWorld Unreachable true (lit "darwin") true)) in
  sent (snd (onDidReceiveSettings {| settingsDisplayLines := Some 4 |}
          (snd (fetchAndDisplayIP 0%nat w))))
  = [ SetImage 0%nat (dataUri (canvas (singleLine 26 (lit "Error"))));
      SetImage 0%nat (dataUri (canvas (singleLine 24 (lit "No Conn")))) ].
Proof.
  exact (settings_after_failure_show_error 0%nat
           {| settingsDisplayLines := Some 4 |}
           (snd (setCurrentAction (Some 0%nat)
                   (startWorld Unreachable true (lit "darwin") true)))
           eq_refl eq_refl eq_refl).
Defined.


(** ** Timers *)

Lemma filter_fresh (h : TimerHandle)
  (ivs : list (TimerHandle * (N * ActionHandle))) :
  Forall (fun t => (fst t < h)%nat) ivs ->
  filter (fun t => negb (Nat.eqb (fst t) h)) ivs = ivs.
Proof.
  induction 1 as [|t ivs Ht _ IH]; [reflexivity|].
  cbn [filter]. rewrite IH.
  destruct (Nat.eqb_spec (fst t) h); [lia|reflexivity].
Qed.

Lemma find_fresh (h : TimerHandle)
  (ivs : list (TimerHandle * (N * ActionHandle))) :
  Forall (fun t => (fst t < h)%nat) ivs ->
  find (fun t => Nat.eqb (fst t) h) ivs = None.
Proof.
  induction 1 as [|t ivs Ht _ IH]; [reflexivity|].
  cbn [find]. rewrite IH.
  destruct (Nat.eqb_spec (fst t) h); [lia|reflexivity].
Qed.

(** X13.  With the display connected [onWillAppear] remembers the key and
    the line count of its settings (1 when they hold none), fetches once,
    and starts one interval of 300000 ms for that key, whose handle it
    keeps. *)
Theorem appear_starts_refresh action settings w :
  displayOnline w = true ->
  let w' := snd (onWillAppear action settings w) in
  fst (onWillAppear action settings w) = Returns tt
  /\ currentAction (self w') = Some action
  /\ displayLines (self w')
     = match settingsDisplayLines settings with Some n => n | None => 1 end
  /\ refreshInterval (self w') = Some (nextTimer w)
  /\ intervals w' = (nextTimer w, (300000%N, action)) :: intervals w
  /\ nextTimer w' = S (nextTimer w)
  /\ currentIP (self w')
     = match network w with
       | Response true _ (Some text) => text
       | _ => lit "Error"
       end
  /\ List.length (sent w') = S (List.length (sent w)).
Proof.
  intros Hon. cbv zeta. open_world w.
  destruct net as [|[|] status [text|]]; run; repeat split.
Qed.

Lemma appear_starts_refresh_witness :
  intervals (snd (onWillAppear 5%nat {| settingsDisplayLines := None |}
               (startWorld Unreachable true (lit "darwin") true)))
  = [(0%nat, (300000%N, 5%nat))].
Proof.
  exact (proj1 (proj2 (proj2 (proj2 (proj2
    (appear_starts_refresh 5%nat {| settingsDisplayLines := None |}
       (startWorld Unreachable true (lit "darwin") true) eq_refl)))))).
Defined.

(** X14.  With the display disconnected [onWillAppear] rejects out of its
    first fetch: the key is remembered but no interval is started, so the
    address is never refreshed. *)
Theorem appear_offline_starts_nothing action settings w :
  displayOnline w = false ->
  let w' := snd (onWillAppear action settings w) in
  fst (onWillAppear action settings w) = Throws DisplayError
  /\ currentAction (self w') = Some action
  /\ refreshInterval (self w') = refreshInterval (self w)
  /\ intervals w' = intervals w.
Proof.
  intros Hoff. cbv zeta. open_world w.
  destruct net as [|[|] status [text|]]; run; repeat split.
Qed.

Lemma appear_offline_starts_nothing_witness :
  intervals (snd (onWillAppear 5%nat {| settingsDisplayLines := None |}
               (startWorld Unreachable false (lit "darwin") true)))
  = [].
Proof.
  exact (proj2 (proj2 (proj2
    (appear_offline_starts_nothing 5%nat {| settingsDisplayLines := None |}
       (startWorld Unreachable false (lit "darwin") true) eq_refl)))).
Defined.

(** X15.  [onWillDisappear] undoes the timer of [onWillAppear]: after the
    two, the intervals that run are those that ran before, the instance
    holds no handle and no key, and the interval that was started does
    nothing when the event loop still fires it. *)
Theorem appear_then_disappear action settings w :
  displayOnline w = true ->
  handlesAllocated w ->
  let w1 := snd (onWillAppear action settings w) in
  let w2 := snd (onWillDisappear w1) in
  intervals w2 = intervals w
  /\ refreshInterval (self w2) = None
  /\ currentAction (self w2) = None
  /\ intervalFires (nextTimer w) w2 = (Returns tt, w2).
Proof.
  intros Hon Hwf. cbv zeta. unfold handlesAllocated in Hwf. open_world w.
  destruct net as [|[|] status [text|]]; run;
    cbn [filter fst]; rewrite Nat.eqb_refl; cbn [negb];
    rewrite (filter_fresh _ _ Hwf), (find_fresh _ _ Hwf);
    repeat split.
Qed.

Lemma appear_then_disappear_witness :
  intervals
    (snd (onWillDisappear
            (snd (onWillAppear 5%nat {| settingsDisplayLines := None |}
                    (startWorld Unreachable true (lit "darwin") true)))))
  = [].
Proof.
  refine (proj1 (appear_then_disappear 5%nat
                   {| settingsDisplayLines := None |}
                   (startWorld Unreachable true (lit "darwin") true)
                   eq_refl _)).
  constructor.
Defined.

(** X16.  The instance keeps one handle only.  When the action appears on
    two keys, the handle of the first interval is overwritten: one
    [onWillDisappear] stops the second interval and forgets the key, a
    second [onWillDisappear] finds no handle, and the first interval keeps
    running and fetching for its key. *)
Theorem second_key_leaks_first_interval a1 s1 a2 s2 w :
  displayOnline w = true ->
  handlesAllocated w ->
  let w1 := snd (onWillAppear a1 s1 w) in
  let w2 := snd (onWillAppear a2 s2 w1) in
  let w3 := snd (onWillDisappear w2) in
  let w4 := snd (onWillDisappear w3) in
  intervals w3 = (nextTimer w, (300000%N, a1)) :: intervals w
  /\ intervals w4 = intervals w3
  /\ refreshInterval (self w4) = None
  /\ intervalFires (nextTimer w) w4 = fetchAndDisplayIP a1 w4.
Proof.
  intros Hon Hwf. cbv zeta. unfold handlesAllocated in Hwf. open_world w.
  assert (Hwf' : Forall (fun t => (fst t < S nt)%nat) ivs).
  { eapply Forall_impl; [|exact Hwf]. cbn. intros; lia. }
  destruct net as [|[|] status [text|]]; run;
    cbn [filter fst]; rewrite Nat.eqb_refl; cbn [negb];
    (destruct (Nat.eqb_spec nt (S nt)) as [F|_]; [lia|]); cbn [negb];
    rewrite (filter_fresh _ _ Hwf'); cbn [find fst];
    rewrite Nat.eqb_refl; repeat split.
Qed.

Lemma second_key_leaks_first_interval_witness :
  intervals
    (snd (onWillDisappear
       (snd (onWillDisappear
          (snd (onWillAppear 2%nat {| settingsDisplayLines := None |}
             (snd (onWillAppear 1%nat {| settingsDisplayLines := None |}
                (startWorld Unreachable true (lit "darwin") true)))))))))
  = [(0%nat, (300000%N, 1%nat))].
Proof.
  refine (eq_trans
    (proj1 (proj2 (second_key_leaks_first_interval 1%nat
       {| settingsDisplayLines := None |} 2%nat
       {| settingsDisplayLines := None |}
       (startWorld Unreachable true (lit "darwin") true) eq_refl _))) _).
  - constructor.
  - reflexivity.
Defined.

(** ** The key press *)

(** X17.  The shell command of [copyToClipboard] is chosen by the platform
    alone ([pbcopy] on darwin, PowerShell on win32, [xclip] on every other
    platform) and holds the text as it is between two fixed pieces: nothing
    in the text is quoted or escaped.  The call resolves exactly when the
    command succeeds. *)
Theorem clipboard_command os :
  exists pre post,
    (forall text w,
       osPlatform w = os ->
       executed (snd (copyToClipboard text w))
       = (pre ++ text ++ post) :: executed w
       /\ fst (copyToClipboard text w)
          = if execSucceeds w then Returns tt else Throws ExecError)
    /\ post
       = if strictEquals os (lit "darwin") then dq ++ lit " | pbcopy"
         else if strictEquals os (lit "win32") then lit "'" ++ dq
         else dq ++ lit " | xclip -selection clipboard".
Proof.
  destruct (strictEquals os (lit "darwin")) eqn:Ed;
    [|destruct (strictEquals os (lit "win32")) eqn:Ew].
  - exists (lit "printf '%s' " ++ dq), (dq ++ lit " | pbcopy").
    split; [|reflexivity]. intros text w <-.
    unfold copyToClipboard, exec. cbn [fst snd]. rewrite Ed.
    unfold withExecuted. cbn [executed]. rewrite <- !app_assoc. now split.
  - exists (lit "powershell -command " ++ dq ++ lit "Set-Clipboard -Value '"),
           (lit "'" ++ dq).
    split; [|reflexivity]. intros text w <-.
    unfold copyToClipboard, exec. cbn [fst snd]. rewrite Ed, Ew.
    unfold withExecuted. cbn [executed]. rewrite <- !app_assoc. now split.
  - exists (lit "printf '%s' " ++ dq),
           (dq ++ lit " | xclip -selection clipboard").
    split; [|reflexivity]. intros text w <-.
    unfold copyToClipboard, exec. cbn [fst snd]. rewrite Ed, Ew.
    unfold withExecuted. cbn [executed]. rewrite <- !app_assoc. now split.
Qed.

Lemma clipboard_command_witness :
  exists pre post,
    executed (snd (copyToClipboard (lit "8.8.8.8")
                (startWorld Unreachable true (lit "linux") true)))
    = [pre ++ lit "8.8.8.8" ++ post]
    /\ post = dq ++ lit " | xclip -selection clipboard".
Proof.
  destruct (clipboard_command (lit "linux")) as [pre [post [H Hpost]]].
  exists pre, post. split.
  - exact (proj1 (H (lit "8.8.8.8")
                    (startWorld Unreachable true (lit "linux") true)
                    eq_refl)).
  - exact Hpost.
Defined.

(** X18.  A key press that succeeds: the cached address, whatever it is,
    goes into one shell command; the key is sent the image of ["Copied!"]
    and then the OK mark; one restore is scheduled 1500 ms later; the
    instance and the log stay as they were. *)
Theorem key_press_copies action w :
  execSucceeds w = true ->
  displayOnline w = true ->
  let w' := snd (onKeyDown action w) in
  fst (onKeyDown action w) = Returns tt
  /\ executed w' = executed (snd (copyToClipboard (currentIP (self w)) w))
  /\ sent w'
     = ShowOk action
         :: SetImage action (dataUri (canvas (singleLine 24 (lit "Copied!"))))
         :: sent w
  /\ timeouts w' = timeouts w ++ [(1500%N, action)]
  /\ self w' = self w
  /\ logged w' = logged w.
Proof.
  intros Hex Hon. cbv zeta. open_world w. run.
  rewrite status_layout. repeat split.
Qed.

(** Pressed before the first fetch has answered, the key copies the
    placeholder. *)
Lemma key_press_copies_witness :
  executed (snd (onKeyDown 0%nat
              (startWorld Unreachable true (lit "darwin") true)))
  = [lit "printf '%s' " ++ dq ++ lit "Loading..." ++ dq ++ lit " | pbcopy"].
Proof.
  exact (proj1 (proj2 (key_press_copies 0%nat
           (startWorld Unreachable true (lit "darwin") true)
           eq_refl eq_refl))).
Defined.



(** X20.  A key press with the display disconnected: the address is copied
    all the same, but the image of ["Copied!"] is refused, the handler's
    own alert is refused too, and [onKeyDown] rejects without a line in the
    log and without a restore scheduled. *)
Theorem key_press_display_offline action w :
  execSucceeds w = true ->
  displayOnline w = false ->
  let w' := snd (onKeyDown action w) in
  fst (onKeyDown action w) = Throws DisplayError
  /\ executed w' = executed (snd (copyToClipboard (currentIP (self w)) w))
  /\ sent w' = sent w
  /\ timeouts w' = timeouts w
  /\ logged w' = logged w.
Proof.
  intros Hex Hoff. cbv zeta. open_world w. run. repeat split.
Qed.

Lemma key_press_display_offline_witness :
  fst (onKeyDown 4%nat (startWorld Unreachable false (lit "win32") true))
  = Throws DisplayError.
Proof.
  exact (proj1 (key_press_display_offline 4%nat
           (startWorld Unreachable false (lit "win32") true)
           eq_refl eq_refl)).
Defined.



(** X22.  [onWillDisappear] does not cancel the restore of a key press: the
    restore stays pending, and when it fires it still sends an image to the
    key that has disappeared. *)
Theorem restore_outlives_the_key action w :
  execSucceeds w = true ->
  displayOnline w = true ->
  timeouts w = [] ->
  let w1 := snd (onKeyDown action w) in
  let w2 := snd (onWillDisappear w1) in
  let w3 := snd (timeoutFires w2) in
  currentAction (self w2) = None
  /\ timeouts w2 = [(1500%N, action)]
  /\ sent w3
     = SetImage action (createTextImage (self w2) (currentIP (self w)))
         :: sent w2.
Proof.
  intros Hex Hon Hto. cbv zeta. open_world w.
  destruct rI as [h|]; run; repeat split.
Qed.

Lemma restore_outlives_the_key_witness :
  exists image,
    sent (snd (timeoutFires (snd (onWillDisappear (snd (onKeyDown 0%nat
           (startWorld Unreachable true (lit "darwin") true)))))))
    = SetImage 0%nat image
        :: sent (snd (onWillDisappear (snd (onKeyDown 0%nat
             (startWorld Unreachable true (lit "darwin") true))))).
Proof.
  eexists.
  exact (proj2 (proj2 (restore_outlives_the_key 0%nat
           (startWorld Unreachable true (lit "darwin") true)
           eq_refl eq_refl eq_refl))).
Defined.

(** X23.  Every handler keeps the handles in order: if each running
    interval has a handle below the next one to hand out, it is so again
    after [onWillAppear], [onWillDisappear], [onDidReceiveSettings],
    [onKeyDown], a firing interval and a firing restore. *)
Theorem handlers_keep_handles_allocated w :
  handlesAllocated w ->
  (forall action settings,
     handlesAllocated (snd (onWillAppear action settings w)))
  /\ handlesAllocated (snd (onWillDisappear w))
  /\ (forall settings, handlesAllocated (snd (onDidReceiveSettings settings w)))
  /\ (forall action, handlesAllocated (snd (onKeyDown action w)))
  /\ (forall h, handlesAllocated (snd (intervalFires h w)))
  /\ handlesAllocated (snd (timeoutFires w)).
Proof.
  unfold handlesAllocated. intros Hwf. open_world w.
  assert (Hwf' : Forall (fun t => (fst t < S nt)%nat) ivs).
  { eapply Forall_impl; [|exact Hwf]. cbn. intros; lia. }
  repeat split.
  - intros action settings.
    destruct net as [|[|] status [text|]]; destruct on; run;
      try assumption; constructor; (assumption || (cbn; lia)).
  - destruct rI as [h|]; run; [|assumption].
    apply Forall_forall. intros t Ht. apply filter_In in Ht as [Ht _].
    rewrite Forall_forall in Hwf. now apply Hwf.
  - intros settings. destruct cA as [a|]; destruct on; run; assumption.
  - intros action. destruct ex; destruct on; run; assumption.
  - intros h. unfold intervalFires. cbn [intervals].
    destruct (find (fun t => Nat.eqb (fst t) h) ivs) as [[h' [ms a]]|];
      [|assumption].
    destruct net as [|[|] status [text|]]; destruct on; run; assumption.
  - destruct tos as [|[ms a] rest]; [assumption|].
    destruct on; run; assumption.
Qed.

Lemma handlers_keep_handles_allocated_witness :
  handlesAllocated
    (snd (onWillAppear 0%nat {| settingsDisplayLines := None |}
            (startWorld Unreachable true (lit "darwin") true))).
Proof.
  refine (proj1 (handlers_keep_handles_allocated
                   (startWorld Unreachable true (lit "darwin") true) _)
            0%nat {| settingsDisplayLines := None |}).
  constructor.
Defined.
